(** * improver.spotdata.read_input: a shallow embedding

    The Python module [lib/improver/spotdata/read_input.py] reads UM output
    and site configuration for the spot-data chain.  It holds the [Load]
    plugin, [get_method_prerequisites], [get_additional_diagnostics],
    [data_from_dictionary] and [read_config].

    Python exceptions are values of [exn]; a call that may raise returns a
    [result].  Calls that reach the outside world (the directory walk, the
    iris loaders, opening a file) are recorded in an event log, so that a
    statement such as "the file system is not touched" is a statement about
    that log. *)

From Stdlib Require Import Ascii SpecFloat.
From stdpp Require Import gmap strings list fin_maps.

Set Warnings "-register-all".

(** ** Python strings *)

(** The double-quote character, used inside one error message. *)
Definition dquote : string := String (Ascii.ascii_of_nat 34) EmptyString.

(** [hay.startswith(needle)] *)
Fixpoint startswith (needle hay : string) : bool :=
  match needle, hay with
  | EmptyString, _ => true
  | String _ _, EmptyString => false
  | String a needle', String b hay' =>
      if Ascii.eqb a b then startswith needle' hay' else false
  end.

(** [needle in hay] for two [str] values: substring containment, comparing
    characters exactly (so upper and lower case differ). *)
Fixpoint contains (needle hay : string) : bool :=
  if startswith needle hay then true
  else match hay with
       | EmptyString => false
       | String _ hay' => contains needle hay'
       end.

(** [s.endswith('/')] *)
Fixpoint ends_with_sep (s : string) : bool :=
  match s with
  | EmptyString => false
  | String c EmptyString => Ascii.eqb c "/"%char
  | String _ s' => ends_with_sep s'
  end.

(** [os.path.join(a, b)] of [posixpath], for one appended component. *)
Definition path_join (a b : string) : string :=
  if startswith "/" b then b
  else match a with
       | EmptyString => b
       | _ => if ends_with_sep a then a +:+ b else a +:+ "/" +:+ b
       end.

(** ** Directory trees and [os.walk] *)

(** What [os.walk] sees below a directory: the sub-directories by name and
    the names of the entries that are not directories. *)
Inductive tree : Type :=
| Dir (dirs : list (string * tree)) (files : list string).

(** [os.walk(top)], top-down: the triple for [top] first, then the walk of
    each sub-directory in turn, for any depth. *)
Fixpoint walk (top : string) (t : tree)
  : list (string * list string * list string) :=
  match t with
  | Dir dirs files =>
      (top, map fst dirs, files)
        :: flat_map (fun d => walk (path_join top (fst d)) (snd d)) dirs
  end.

(** ** Exceptions, results and the event log *)

(** The exception classes this module raises or provokes.  The spec calls
    them by role: [AttributeError] is its UnknownMethod, [IOError] its
    NotFound, [ValueError] its NoMatch, [TypeError] its InvalidDictionary
    and [KeyError] its MissingKey. *)
Inductive exn : Type :=
| AttributeError (msg : string)
| IOError (msg : string)
| ValueError (msg : string)
| TypeError (msg : string)
| KeyError (msg : string)
| RecursionError (msg : string).

Inductive result (A : Type) : Type :=
| Ok (a : A)
| Raise (e : exn).
Arguments Ok {A} a.
Arguments Raise {A} e.

(** The [filepath] argument of the loaders: one path, or a list of paths. *)
Inductive filespec : Type :=
| OnePath (p : string)
| Paths (ps : list string).

(** Calls that leave the module. *)
Inductive event : Type :=
| EvWalk (top : string)
| EvLoadCube (filepath : filespec) (diagnostic : option string)
| EvLoad (filepath : filespec) (diagnostic : option string)
| EvOpen (file_path : string).

(** A computation: the events it performed, in order, and how it ended. *)
Definition io (A : Type) : Type := list event * result A.

Definition raise {A} (e : exn) : io A := ([], Raise e).
Definition emit (ev : event) : io unit := ([ev], Ok tt).
Definition lift {A} (r : result A) : io A := ([], r).

(** Sequencing: the logs are appended, and an exception ends the run. *)
#[global] Instance io_ret : MRet io := fun A a => ([], Ok a).
#[global] Instance io_bind : MBind io := fun A B k m =>
  match m with
  | (log, Ok a) => let '(log', r) := k a in (log ++ log', r)
  | (log, Raise e) => (log, Raise e)
  end.

(** How a computation ended, without its log. *)
Definition outcome {A} (m : io A) : result A := snd m.

(** ** JSON values as [json.load] builds them *)

(** [dict] keeps the order of the document, so an object is a list of
    members; a number is an [int] or a binary64 [float]. *)
Inductive json : Type :=
| JNull
| JBool (b : bool)
| JInt (n : Z)
| JFloat (x : spec_float)
| JStr (s : string)
| JArr (items : list json)
| JObj (members : list (string * json)).

Definition is_mapping (v : json) : bool :=
  match v with JObj _ => true | _ => false end.

(** ** The libraries the module imports *)

(** [iris]: the loaders, and what the module does with what they return.
    A value of [Obj] is a Python object as iris hands it back (a Cube, a
    CubeList); the module never looks inside. *)
Class Iris : Type := {
  Obj : Type;
  Constraint : Type;
  (** [iris.load_cube(filepath, diagnostic)] *)
  load_cube : filespec -> option string -> result Obj;
  (** [iris.load(filepath, diagnostic)] *)
  load : filespec -> option string -> result Obj;
  (** [cubes.extract(constraint)] inside
      [iris.FUTURE.context(cell_datetime_objects=True)] *)
  extract : Constraint -> Obj -> Obj;
  (** [not cubes]: for a CubeList, that it has no element *)
  py_not : Obj -> bool;
  (** ['{}'.format(constraint)] *)
  constraint_str : Constraint -> string;
  (** The attributes an instance has without the class body naming them
      ([__class__], [__doc__], [__eq__], ...): [Some call] when the name
      is one of them, with what calling it on two arguments does. *)
  object_attr : string -> option (filespec -> option string -> result Obj)
}.

(** [os] and the built-in [open]: the directory found at a path, if the
    path is a directory, and the text of the file at a path. *)
Class OS : Type := {
  directory : string -> option tree;
  read_text : string -> result string
}.

(** [json]: the decoder behind [json.load]. *)
Class Json : Type := {
  json_loads : string -> result json
}.

(** [os.walk(top)]: nothing at all when [top] is not a directory. *)
Definition os_walk `{OS} (top : string)
  : list (string * list string * list string) :=
  match directory top with
  | Some t => walk top t
  | None => []
  end.

(** ** class Load *)

(** [__init__] stores the tag and nothing else. *)
Record Load : Type := { method : string }.

Definition __repr__ (self : Load) : string :=
  "<Load: method: " +:+ method self +:+ ">".

(** What [getattr(self, name)] can evaluate to on a [Load] instance. *)
Inductive attribute `{Iris} : Type :=
| InstanceValue (v : string)   (** the [str] stored in [self.method] *)
| BoundInit                     (** [self.__init__] *)
| BoundRepr                     (** [self.__repr__] *)
| BoundProcess                  (** [self.process] *)
| StaticSingleFile              (** [Load.single_file] *)
| StaticMultiFile               (** [Load.multi_file] *)
| Inherited (call : filespec -> option string -> result Obj).

(** Attribute lookup: the instance dictionary holds [method]; the class
    body defines five names; the rest is what every object has.  [None]
    stands for the [AttributeError] of a failed lookup. *)
Definition getattr `{Iris} (self : Load) (name : string) : option attribute :=
  if decide (name = "method") then Some (InstanceValue (method self))
  else if decide (name = "__init__") then Some BoundInit
  else if decide (name = "__repr__") then Some BoundRepr
  else if decide (name = "process") then Some BoundProcess
  else if decide (name = "single_file") then Some StaticSingleFile
  else if decide (name = "multi_file") then Some StaticMultiFile
  else Inherited <$> object_attr name.

(** Load and return a single iris.cube.Cube *)
Definition single_file `{Iris}
    (filepath : filespec) (diagnostic : option string) : io Obj :=
  emit (EvLoadCube filepath diagnostic);; lift (load_cube filepath diagnostic).

(** Load multiple cubes and return a iris.cube.CubeList *)
Definition multi_file `{Iris}
    (filepath : filespec) (diagnostic : option string) : io Obj :=
  emit (EvLoad filepath diagnostic);; lift (load filepath diagnostic).

(** [function(filepath, diagnostic)] for the value the lookup produced.
    A [str] cannot be called; [__init__] and [__repr__] are bound methods
    of other arities; [self.process] runs [process] again on the same
    instance, hence with the same tag, without end, which CPython stops
    with a [RecursionError] (messages in the wording of CPython 3). *)
Definition call `{Iris} (function : attribute)
    (filepath : filespec) (diagnostic : option string) : io Obj :=
  match function with
  | InstanceValue _ => raise (TypeError "'str' object is not callable")
  | BoundInit =>
      raise (TypeError
        "__init__() takes 2 positional arguments but 3 were given")
  | BoundRepr =>
      raise (TypeError
        "__repr__() takes 1 positional argument but 3 were given")
  | BoundProcess =>
      raise (RecursionError "maximum recursion depth exceeded")
  | StaticSingleFile => single_file filepath diagnostic
  | StaticMultiFile => multi_file filepath diagnostic
  | Inherited f => lift (f filepath diagnostic)
  end.

(** [Load.process]: only the lookup sits inside the [try]; the call of
    what was found is outside it. *)
Definition process `{Iris} (self : Load)
    (filepath : filespec) (diagnostic : option string) : io Obj :=
  match getattr self (method self) with
  | None =>
      raise (AttributeError
        ("Unknown method " +:+ dquote +:+ method self +:+ dquote
           +:+ " passed to " +:+ "Load" +:+ "."))
  | Some function => call function filepath diagnostic
  end.

(** ** get_additional_diagnostics *)

(** The list comprehension over [os.walk]: for every triple of the walk,
    in order, the joined path of every file name containing the name. *)
Definition files_to_read `{OS}
    (diagnostic_name diagnostic_data_path : string) : list string :=
  flat_map
    (fun '(dirpath, _, files) =>
       map (path_join dirpath)
           (List.filter (fun filename => contains diagnostic_name filename)
                        files))
    (os_walk diagnostic_data_path).

Definition get_additional_diagnostics `{Iris} `{OS}
    (diagnostic_name diagnostic_data_path : string)
    (time_extract : option Constraint) : io Obj :=
  emit (EvWalk diagnostic_data_path);;
  match files_to_read diagnostic_name diagnostic_data_path with
  | [] =>
      raise (IOError
        ("No relevant data files found in " +:+ diagnostic_data_path +:+ "."))
  | files =>
      cubes ← process {| method := "multi_file" |} (Paths files) None;
      match time_extract with
      | Some constraint =>
          let cubes := extract constraint cubes in
          if py_not cubes
          then raise (ValueError
                 ("No diagnostics match " +:+ constraint_str constraint))
          else mret cubes
      | None => mret cubes
      end
  end.

(** ** get_method_prerequisites *)

(** The loop [for item in diagnostics: additional_diagnostics[item] = ...]. *)
Fixpoint for_item_in `{Iris} `{OS} (diagnostics : list string)
    (diagnostic_data_path : string)
    (additional_diagnostics : gmap string Obj) : io (gmap string Obj) :=
  match diagnostics with
  | [] => mret additional_diagnostics
  | item :: rest =>
      v ← get_additional_diagnostics item diagnostic_data_path None;
      for_item_in rest diagnostic_data_path
                  (<[item := v]> additional_diagnostics)
  end.

(** The result is [None] for Python's [None], else the dictionary. *)
Definition get_method_prerequisites `{Iris} `{OS}
    (method diagnostic_data_path : string) : io (option (gmap string Obj)) :=
  if decide (method = "model_level_temperature_lapse_rate") then
    let diagnostics :=
      ["temperature_on_height_levels";
       "pressure_on_height_levels";
       "surface_pressure"] in
    additional_diagnostics ← for_item_in diagnostics diagnostic_data_path ∅;
    mret (Some additional_diagnostics)
  else mret None.

(** ** data_from_dictionary *)

(** Python objects are handled by reference; a container holds the
    references of its elements. *)
Definition ref : Type := positive.

Inductive pyval : Type :=
| PyNone
| PyBool (b : bool)
| PyInt (n : Z)
| PyStr (s : string)
| PyList (items : list ref)
| PyDict (entries : gmap string ref)
| PyObject (id : ref).   (** any other object, a Cube for instance *)

(** [isinstance(v, dict)] *)
Definition isinstance_dict (v : pyval) : bool :=
  match v with PyDict _ => true | _ => false end.

Definition data_from_dictionary (dictionary_data : pyval) (key : string)
  : result ref :=
  match dictionary_data with
  | PyDict entries =>
      if decide (key ∈ dom entries) then
        match entries !! key with
        | Some v => Ok v
        | None => Raise (KeyError key)
        end
      else Raise (KeyError ("Data " +:+ key +:+ " not found in dictionary."))
  | _ =>
      Raise (TypeError
        "Invalid type sent to data_from_dictionary - Not a dictionary.")
  end.

(** ** read_config *)

Definition read_config `{OS} `{Json} (file_path : string) : io json :=
  emit (EvOpen file_path);;
  text ← lift (read_text file_path);
  lift (json_loads text).

(** ** The spec's reading of the file search *)

(** [file_under top t dirpath filename]: in the tree [t] rooted at path
    [top], the directory reached as [dirpath], at whatever depth, lists
    [filename] among its files. *)
Inductive file_under : string -> tree -> string -> string -> Prop :=
| file_here top dirs files filename :
    filename ∈ files ->
    file_under top (Dir dirs files) top filename
| file_below top dirs files name sub dirpath filename :
    (name, sub) ∈ dirs ->
    file_under (path_join top name) sub dirpath filename ->
    file_under top (Dir dirs files) dirpath filename.

(** [needle] occurs inside [hay], character for character. *)
Definition substring_of (needle hay : string) : Prop :=
  exists before after, hay = before +:+ needle +:+ after.

(** Some file below the root directory qualifies for the diagnostic: its
    own name, not its path, contains the diagnostic name. *)
Definition qualifies `{OS} (diagnostic_name diagnostic_data_path : string)
  : Prop :=
  exists t dirpath filename,
    directory diagnostic_data_path = Some t /\
    file_under diagnostic_data_path t dirpath filename /\
    substring_of diagnostic_name filename.

(** The names [get_method_prerequisites] asks for. *)
Definition lapse_rate_diagnostics : list string :=
  ["temperature_on_height_levels";
   "pressure_on_height_levels";
   "surface_pressure"].

(** ** Sample worlds *)

(** A data directory with one file per lapse-rate diagnostic, an unrelated
    file, and a sub-directory whose own name contains a diagnostic name. *)
Definition sample_tree : tree :=
  Dir [("surface_pressure_archive",
        Dir [] ["readme.txt"; "foo_surface_pressure_20200102.nc"])]
      ["foo_temperature_on_height_levels_20200101.nc";
       "foo_pressure_on_height_levels_20200101.nc";
       "foo_surface_pressure_20200101.nc";
       "foo_wind_speed_20200101.nc"].

Definition sample_config_text : string :=
  "{" +:+ dquote +:+ "sites" +:+ dquote +:+ ": [1, 2]}".

Definition sample_config : json := JObj [("sites", JArr [JInt 1; JInt 2])].

Definition sample_os : OS :=
  {| directory := fun p =>
       if decide (p = "/data") then Some sample_tree
       else if decide (p = "/empty") then Some (Dir [] [])
       else None;
     read_text := fun p =>
       if decide (p = "/etc/list.json") then Ok "[1, 2]"
       else Raise (IOError "No such file or directory") |}.

(** The paths a [filepath] argument names. *)
Definition path_of (filepath : filespec) : list string :=
  match filepath with OnePath p => [p] | Paths ps => ps end.

(** An iris double: a CubeList is the list of the paths it was loaded
    from, one cube per file; a constraint is a time stamp, kept by the
    cubes whose path mentions it. *)
Definition sample_iris : Iris :=
  {| Obj := list string;
     Constraint := string;
     load_cube := fun filepath _ => Ok (path_of filepath);
     load := fun filepath _ => Ok (path_of filepath);
     extract := fun constraint cubes =>
       List.filter (fun cube => contains constraint cube) cubes;
     py_not := fun cubes => match cubes with [] => true | _ => false end;
     constraint_str := fun constraint => constraint;
     object_attr := fun name =>
       if decide (name = "__class__")
       then Some (fun _ _ =>
              Raise (TypeError
                "__init__() takes 2 positional arguments but 3 were given"))
       else None |}.

(** The same double reading files that hold no cube at all: [iris.load]
    then returns an empty CubeList, without raising. *)
Definition hollow_iris : Iris :=
  {| Obj := list string;
     Constraint := string;
     load_cube := fun _ _ => Raise (ValueError "no cubes found");
     load := fun _ _ => Ok [];
     extract := fun constraint cubes =>
       List.filter (fun cube => contains constraint cube) cubes;
     py_not := fun cubes => match cubes with [] => true | _ => false end;
     constraint_str := fun constraint => constraint;
     object_attr := fun _ => None |}.

(** A decoder double for the sample texts: it reads the two documents
    and treats any other text as one that is no JSON from its first
    character on (message in the wording of CPython 3). *)
Definition sample_json : Json :=
  {| json_loads := fun text =>
       if decide (text = sample_config_text) then Ok sample_config
       else if decide (text = "[1, 2]") then Ok (JArr [JInt 1; JInt 2])
       else Raise (ValueError "Expecting value: line 1 column 1 (char 0)") |}.

(** ** The event log, and further sample worlds *)

(** The events a computation performed, without its outcome. *)
Definition events {A} (m : io A) : list event := fst m.


(** The sample data directory without its pressure file. *)
Definition partial_tree : tree :=
  Dir []
      ["foo_temperature_on_height_levels_20200101.nc";
       "foo_surface_pressure_20200101.nc";
       "foo_wind_speed_20200101.nc"].

Definition partial_os : OS :=
  {| directory := fun p =>
       if decide (p = "/partial") then Some partial_tree else None;
     read_text := fun p =>
       if decide (p = "/etc/broken.json") then Ok "not json"
       else Raise (IOError "No such file or directory") |}.

(** An iris double whose loaders cannot read any file. *)
Definition failing_iris : Iris :=
  {| Obj := list string;
     Constraint := string;
     load_cube := fun _ _ => Raise (IOError "cannot read file");
     load := fun _ _ => Raise (IOError "cannot read file");
     extract := fun constraint cubes =>
       List.filter (fun cube => contains constraint cube) cubes;
     py_not := fun cubes => match cubes with [] => true | _ => false end;
     constraint_str := fun constraint => constraint;
     object_attr := fun _ => None |}.

(** A name as a directory listing gives it: not empty, not one of the
    two dot entries, and without a separator in it. *)
Definition listed_name (name : string) : bool :=
  match name with
  | EmptyString => false
  | _ => negb (contains "/" name)
         && negb (bool_decide (name = "."))
         && negb (bool_decide (name = ".."))
  end.

(** Every file and directory name of the tree is such a name. *)
Fixpoint well_named (t : tree) : bool :=
  match t with
  | Dir dirs files =>
      forallb listed_name files
      && forallb (fun d => listed_name (fst d) && well_named (snd d)) dirs
  end.

(** A directory path ready to take a further component: the separator is
    added unless the path is empty or ends with one already. *)
Definition with_sep (dirpath : string) : string :=
  match dirpath with
  | EmptyString => EmptyString
  | _ => if ends_with_sep dirpath then dirpath else dirpath +:+ "/"
  end.

(** [a/b/.../filename] for the directory names [a], [b], ... *)
Definition below (dirnames : list string) (filename : string) : string :=
  foldr (fun name rest => name +:+ "/" +:+ rest) filename dirnames.

(** * Properties *)

(** ** Strings *)

Lemma append_assoc (a b c : string) : (a +:+ b) +:+ c = a +:+ b +:+ c.
Proof.
  induction a as [|x a IH]; [done |].
  change (String x ((a +:+ b) +:+ c) = String x (a +:+ b +:+ c)).
  by rewrite IH.
Qed.

Lemma append_nil_r (a : string) : a +:+ EmptyString = a.
Proof.
  induction a as [|x a IH]; [done |].
  change (String x (a +:+ EmptyString) = String x a). by rewrite IH.
Qed.

Lemma startswith_spec needle hay :
  startswith needle hay = true <-> exists after, hay = needle +:+ after.
Proof.
  revert hay. induction needle as [|a needle IH]; intros hay; simpl.
  - split; [intros _; by exists hay | done].
  - destruct hay as [|b hay].
    + split; [done | intros [after Heq]; discriminate].
    + destruct (Ascii.eqb_spec a b) as [->|Hne].
      * rewrite IH. split; intros [after Heq]; exists after.
        -- by rewrite Heq.
        -- by injection Heq.
      * split; [done | intros [after Heq]; injection Heq; congruence].
Qed.

Lemma contains_spec needle hay :
  contains needle hay = true <-> substring_of needle hay.
Proof.
  unfold substring_of. induction hay as [|c hay IH]; simpl.
  - destruct (startswith needle EmptyString) eqn:Hs.
    + split; [intros _ | done].
      apply startswith_spec in Hs as [after Hs]. by exists EmptyString, after.
    + split; [done |]. intros ([|c before] & after & Heq); simpl in Heq.
      * assert (startswith needle EmptyString = true) as Hs'
          by (apply startswith_spec; eauto).
        congruence.
      * discriminate.
  - destruct (startswith needle (String c hay)) eqn:Hs.
    + split; [intros _ | done].
      apply startswith_spec in Hs as [after Hs]. by exists EmptyString, after.
    + rewrite IH. split.
      * intros (before & after & ->). by exists (String c before), after.
      * intros ([|c' before] & after & Heq); simpl in Heq.
        -- assert (startswith needle (String c hay) = true) as Hs'
             by (apply startswith_spec; eauto).
           congruence.
        -- injection Heq as -> ->. eauto.
Qed.

(** ** The directory walk *)

(** Induction over a tree with the hypothesis for every sub-directory. *)
Lemma tree_nested_ind (P : tree -> Prop) :
  (forall dirs files, Forall (fun d => P d.2) dirs -> P (Dir dirs files)) ->
  forall t, P t.
Proof.
  intros step. fix IH 1. intros [dirs files]. apply step.
  induction dirs as [|d dirs IHdirs]; constructor; [apply IH | apply IHdirs].
Qed.

Lemma walk_sound t : forall top dirpath dirnames files filename,
  In (dirpath, dirnames, files) (walk top t) ->
  filename ∈ files ->
  file_under top t dirpath filename.
Proof.
  induction t as [dirs files0 IH] using tree_nested_ind.
  intros top dirpath dirnames files filename Hin Hfile. simpl in Hin.
  destruct Hin as [Heq | Hin].
  - injection Heq as <- _ <-. by constructor.
  - apply in_flat_map in Hin as ([name sub] & Hd & Hin). simpl in Hin.
    rewrite Forall_forall in IH.
    apply file_below with name sub.
    + by apply list_elem_of_In.
    + apply list_elem_of_In in Hd.
      exact (IH (name, sub) Hd _ _ _ _ _ Hin Hfile).
Qed.

Lemma walk_complete top t dirpath filename :
  file_under top t dirpath filename ->
  exists dirnames files,
    In (dirpath, dirnames, files) (walk top t) /\ filename ∈ files.
Proof.
  induction 1 as [top dirs files filename Hfile
                 |top dirs files name sub dirpath filename Hd _ IH].
  - exists (map fst dirs), files. split; [by left | done].
  - destruct IH as (dirnames & files' & Hin & Hfile).
    exists dirnames, files'. split; [| done].
    simpl. right. apply in_flat_map. exists (name, sub).
    split; [by apply list_elem_of_In | done].
Qed.

(** What the comprehension selects, in the spec's terms. *)
Lemma files_to_read_spec `{OS} diagnostic_name diagnostic_data_path path :
  path ∈ files_to_read diagnostic_name diagnostic_data_path <->
  exists t dirpath filename,
    directory diagnostic_data_path = Some t /\
    file_under diagnostic_data_path t dirpath filename /\
    substring_of diagnostic_name filename /\
    path = path_join dirpath filename.
Proof.
  unfold files_to_read, os_walk. rewrite list_elem_of_In, in_flat_map. split.
  - intros ([[dirpath dirnames] files] & Hwalk & Hpath).
    apply in_map_iff in Hpath as (filename & <- & Hfile).
    apply filter_In in Hfile as [Hfile Hsub].
    destruct (directory diagnostic_data_path) as [t|] eqn:Hdir; [| done].
    exists t, dirpath, filename. repeat split.
    + apply walk_sound with dirnames files; [done | by apply list_elem_of_In].
    + by apply contains_spec.
  - intros (t & dirpath & filename & -> & Hunder & Hsub & ->).
    apply walk_complete in Hunder as (dirnames & files & Hwalk & Hfile).
    exists (dirpath, dirnames, files). split; [done |].
    apply in_map_iff. exists filename. split; [done |].
    apply filter_In. split; [by apply list_elem_of_In | by apply contains_spec].
Qed.

(** No file qualifies exactly when the comprehension is empty. *)
Lemma files_to_read_nil `{OS} diagnostic_name diagnostic_data_path :
  files_to_read diagnostic_name diagnostic_data_path = [] <->
  forall t dirpath filename,
    directory diagnostic_data_path = Some t ->
    file_under diagnostic_data_path t dirpath filename ->
    ~ substring_of diagnostic_name filename.
Proof.
  split.
  - intros Hnil t dirpath filename Hdir Hunder Hsub.
    assert (path_join dirpath filename
              ∈ files_to_read diagnostic_name diagnostic_data_path) as Hin
      by (apply files_to_read_spec; eauto 10).
    rewrite Hnil in Hin. by apply not_elem_of_nil in Hin.
  - intros Hnone.
    destruct (files_to_read diagnostic_name diagnostic_data_path)
      as [|path rest] eqn:Hfiles; [done |].
    assert (path ∈ files_to_read diagnostic_name diagnostic_data_path) as Hin
      by (rewrite Hfiles; left).
    apply files_to_read_spec in Hin
      as (t & dirpath & filename & Hdir & Hunder & Hsub & _).
    by destruct (Hnone t dirpath filename).
Qed.

Lemma qualifies_iff `{OS} diagnostic_name diagnostic_data_path :
  qualifies diagnostic_name diagnostic_data_path <->
  files_to_read diagnostic_name diagnostic_data_path <> [].
Proof.
  rewrite files_to_read_nil. unfold qualifies. split.
  - intros (t & dirpath & filename & Hdir & Hunder & Hsub) Hnone.
    by destruct (Hnone t dirpath filename).
  - intros Hsome.
    destruct (files_to_read diagnostic_name diagnostic_data_path)
      as [|path rest] eqn:Hfiles.
    + destruct Hsome. by apply files_to_read_nil.
    + assert (path ∈ files_to_read diagnostic_name diagnostic_data_path)
        as Hin by (rewrite Hfiles; left).
      apply files_to_read_spec in Hin
        as (t & dirpath & filename & Hdir & Hunder & Hsub & _).
      eauto 10.
Qed.

(** ** Load.process *)

(** Runs the sequencing of [io] on whatever is known of its parts. *)
Ltac io_step :=
  unfold single_file, multi_file, emit, lift, raise,
         mbind, mret, io_bind, io_ret; simpl.

Lemma process_multi_file `{Iris} filepath diagnostic :
  process {| method := "multi_file" |} filepath diagnostic
  = ([EvLoad filepath diagnostic], load filepath diagnostic).
Proof.
  unfold process. simpl. io_step.
  by destruct (load filepath diagnostic).
Qed.

Lemma process_single_file `{Iris} filepath diagnostic :
  process {| method := "single_file" |} filepath diagnostic
  = ([EvLoadCube filepath diagnostic], load_cube filepath diagnostic).
Proof.
  unfold process. simpl. io_step.
  by destruct (load_cube filepath diagnostic).
Qed.

(** A tag for which the attribute lookup fails is reported as unknown,
    and the message carries the tag and the class name. *)
Lemma process_failed_lookup `{Iris} self filepath diagnostic :
  getattr self (method self) = None ->
  exists msg,
    process self filepath diagnostic = ([], Raise (AttributeError msg)) /\
    substring_of (method self) msg /\ substring_of "Load" msg.
Proof.
  intros Hnone. unfold process. rewrite Hnone. eexists. split; [done |].
  split.
  - by exists ("Unknown method " +:+ dquote), (dquote +:+ " passed to Load.").
  - exists ("Unknown method " +:+ dquote +:+ method self +:+ dquote
              +:+ " passed to "), ".".
    by rewrite !append_assoc.
Qed.

(** C1.  The tag ["method"] is neither of the two strategies, yet the
    loader built with it does not report an unknown method: the attribute
    lookup finds the instance attribute [self.method], a [str], and the
    call of that string, made outside the [try], raises [TypeError], for
    every file path and filter. *)
Theorem C1_tag_method_escapes_unknown_method `{Iris} filepath diagnostic :
  "method" <> "single_file" /\ "method" <> "multi_file" /\
  process {| method := "method" |} filepath diagnostic
  = ([], Raise (TypeError "'str' object is not callable")) /\
  forall msg, outcome (process {| method := "method" |} filepath diagnostic)
              <> Raise (AttributeError msg).
Proof. repeat split; done. Qed.

(** The same lookup finds [self.process] for the tag ["process"]. *)
Lemma process_tag_process `{Iris} filepath diagnostic :
  process {| method := "process" |} filepath diagnostic
  = ([], Raise (RecursionError "maximum recursion depth exceeded")).
Proof. done. Qed.

(** None of the names the class itself gives an instance, the two
    strategies apart, is reported as an unknown method. *)
Lemma process_class_attribute_tags `{Iris} tag filepath diagnostic msg :
  tag ∈ ["method"; "__init__"; "__repr__"; "process"] ->
  outcome (process {| method := tag |} filepath diagnostic)
  <> Raise (AttributeError msg).
Proof.
  intros Htag.
  repeat (apply elem_of_cons in Htag as [->|Htag]); [done .. |].
  by apply elem_of_nil in Htag.
Qed.

(** ** get_additional_diagnostics *)

(** No file to read: the walk is the only event, the loader is not
    called, whatever the time constraint. *)
Lemma finder_no_files `{Iris} `{OS} diagnostic_name diagnostic_data_path
    time_extract :
  files_to_read diagnostic_name diagnostic_data_path = [] ->
  get_additional_diagnostics diagnostic_name diagnostic_data_path time_extract
  = ([EvWalk diagnostic_data_path],
     Raise (IOError ("No relevant data files found in "
                       +:+ diagnostic_data_path +:+ "."))).
Proof. intros Hnil. unfold get_additional_diagnostics. by rewrite Hnil. Qed.

(** Some file to read: they are loaded in one call, with no filter; then
    the time constraint, if any, is applied to what was loaded. *)
Lemma finder_some_files `{Iris} `{OS} diagnostic_name diagnostic_data_path
    time_extract :
  let files := files_to_read diagnostic_name diagnostic_data_path in
  files <> [] ->
  get_additional_diagnostics diagnostic_name diagnostic_data_path time_extract
  = ([EvWalk diagnostic_data_path; EvLoad (Paths files) None],
     match load (Paths files) None with
     | Raise e => Raise e
     | Ok cubes =>
         match time_extract with
         | None => Ok cubes
         | Some constraint =>
             if py_not (extract constraint cubes)
             then Raise (ValueError
                    ("No diagnostics match " +:+ constraint_str constraint))
             else Ok (extract constraint cubes)
         end
     end).
Proof.
  intros files Hfiles. unfold get_additional_diagnostics. fold files.
  destruct files as [|path rest] eqn:Hf; [done |].
  rewrite process_multi_file. io_step.
  destruct (load (Paths (path :: rest)) None) as [cubes|e]; [| done].
  destruct time_extract as [constraint|]; [| done].
  by destruct (py_not (extract constraint cubes)).
Qed.

(** With a time constraint the size of the collection is looked at: a
    collection that is returned is not empty. *)
Lemma finder_constrained_not_empty `{Iris} `{OS}
    diagnostic_name diagnostic_data_path constraint cubes :
  outcome (get_additional_diagnostics
             diagnostic_name diagnostic_data_path (Some constraint))
  = Ok cubes ->
  py_not cubes = false.
Proof.
  intros Hret.
  destruct (decide (files_to_read diagnostic_name diagnostic_data_path = []))
    as [Hnil|Hsome].
  - by rewrite (finder_no_files _ _ _ Hnil) in Hret.
  - rewrite (finder_some_files _ _ _ Hsome) in Hret. simpl in Hret.
    destruct (load _ None) as [loaded|e]; [| done].
    destruct (py_not (extract constraint loaded)) eqn:Hempty; [done |].
    by injection Hret as <-.
Qed.

(** C3.  The code returns an empty collection where it should fail:
    files qualify, [iris.load] finds no cube in them, no time constraint
    is given, and the call returns the empty collection with no
    exception.  The docstring promises [ValueError] when the diagnostics
    are not found in the files read, and the branch for a time constraint
    does make the test [if not cubes]. *)
Theorem C3_empty_collection_returned :
  qualifies (H := sample_os) "surface_pressure" "/data" /\
  @get_additional_diagnostics hollow_iris sample_os
    "surface_pressure" "/data" None
  = ([EvWalk "/data";
      EvLoad (Paths ["/data/foo_surface_pressure_20200101.nc";
                     "/data/surface_pressure_archive/foo_surface_pressure_20200102.nc"])
             None],
     Ok []) /\
  @py_not hollow_iris [] = true.
Proof.
  split; [| by split].
  apply qualifies_iff. by vm_compute.
Qed.

(** C4, as the code has it.  When no file qualifies, the search fails
    with [IOError] before any load, and the message names the root
    directory; the diagnostic name is not part of it. *)
Theorem C4_no_file_IOError_names_directory `{Iris} `{OS}
    diagnostic_name diagnostic_data_path time_extract :
  ~ qualifies diagnostic_name diagnostic_data_path ->
  exists msg,
    get_additional_diagnostics
      diagnostic_name diagnostic_data_path time_extract
    = ([EvWalk diagnostic_data_path], Raise (IOError msg)) /\
    msg = "No relevant data files found in " +:+ diagnostic_data_path +:+ "."
    /\ substring_of diagnostic_data_path msg.
Proof.
  intros Hnone. eexists. split; [| split; [reflexivity |]].
  - apply finder_no_files.
    destruct (decide (files_to_read diagnostic_name diagnostic_data_path = []))
      as [Hnil|Hsome]; [done |].
    destruct Hnone. by apply qualifies_iff.
  - by exists "No relevant data files found in ", ".".
Qed.

Lemma C4_no_file_IOError_names_directory_witness :
  exists msg,
    @get_additional_diagnostics sample_iris sample_os
      "pressure_on_height_levels" "/empty" None
    = ([EvWalk "/empty"], Raise (IOError msg)) /\
    msg = "No relevant data files found in /empty."
    /\ substring_of "/empty" msg.
Proof.
  apply (@C4_no_file_IOError_names_directory sample_iris sample_os
           "pressure_on_height_levels" "/empty" None).
  rewrite qualifies_iff. intros Hsome. apply Hsome. reflexivity.
Defined.

(** C4 as stated fails: with no qualifying file the error message does
    not name the diagnostic. *)
Lemma C4_message_omits_diagnostic :
  ~ qualifies (H := sample_os) "pressure_on_height_levels" "/empty" /\
  exists msg,
    outcome (@get_additional_diagnostics sample_iris sample_os
               "pressure_on_height_levels" "/empty" None)
    = Raise (IOError msg) /\
    ~ substring_of "pressure_on_height_levels" msg.
Proof.
  split.
  - rewrite qualifies_iff. intros Hsome. by apply Hsome.
  - eexists. split; [reflexivity |].
    rewrite <- contains_spec. by vm_compute.
Qed.

(** C5.  When some file qualifies and [iris.load] returns a collection
    for the qualifying files: a time constraint is applied to that loaded
    collection; an empty selection raises [ValueError] with the constraint
    in its message, any other selection is returned; with no constraint
    the loaded collection is returned as it is.  The load comes after the
    walk in both cases, and nothing follows it. *)
Theorem C5_time_constraint_after_load `{Iris} `{OS}
    diagnostic_name diagnostic_data_path cubes :
  qualifies diagnostic_name diagnostic_data_path ->
  load (Paths (files_to_read diagnostic_name diagnostic_data_path)) None
  = Ok cubes ->
  (forall constraint,
     get_additional_diagnostics
       diagnostic_name diagnostic_data_path (Some constraint)
     = ([EvWalk diagnostic_data_path;
         EvLoad (Paths (files_to_read diagnostic_name diagnostic_data_path))
                None],
        if py_not (extract constraint cubes)
        then Raise (ValueError
               ("No diagnostics match " +:+ constraint_str constraint))
        else Ok (extract constraint cubes)) /\
     substring_of (constraint_str constraint)
       ("No diagnostics match " +:+ constraint_str constraint)) /\
  get_additional_diagnostics diagnostic_name diagnostic_data_path None
  = ([EvWalk diagnostic_data_path;
      EvLoad (Paths (files_to_read diagnostic_name diagnostic_data_path))
             None],
     Ok cubes).
Proof.
  intros Hsome%qualifies_iff Hload. split.
  - intros constraint. split.
    + rewrite (finder_some_files _ _ (Some constraint) Hsome).
      by rewrite Hload.
    + exists "No diagnostics match ", EmptyString. by rewrite append_nil_r.
  - rewrite (finder_some_files _ _ None Hsome). by rewrite Hload.
Qed.

Lemma C5_time_constraint_after_load_witness :
  (forall constraint : string,
     @get_additional_diagnostics sample_iris sample_os
       "surface_pressure" "/data" (Some constraint)
     = ([EvWalk "/data";
         EvLoad (Paths ["/data/foo_surface_pressure_20200101.nc";
                        "/data/surface_pressure_archive/foo_surface_pressure_20200102.nc"])
                None],
        if @py_not sample_iris
             (@extract sample_iris constraint
                ["/data/foo_surface_pressure_20200101.nc";
                 "/data/surface_pressure_archive/foo_surface_pressure_20200102.nc"])
        then Raise (ValueError ("No diagnostics match " +:+ constraint))
        else Ok (@extract sample_iris constraint
                   ["/data/foo_surface_pressure_20200101.nc";
                    "/data/surface_pressure_archive/foo_surface_pressure_20200102.nc"]))
     /\ substring_of constraint ("No diagnostics match " +:+ constraint)) /\
  @get_additional_diagnostics sample_iris sample_os
    "surface_pressure" "/data" None
  = ([EvWalk "/data";
      EvLoad (Paths ["/data/foo_surface_pressure_20200101.nc";
                     "/data/surface_pressure_archive/foo_surface_pressure_20200102.nc"])
             None],
     Ok ["/data/foo_surface_pressure_20200101.nc";
         "/data/surface_pressure_archive/foo_surface_pressure_20200102.nc"]).
Proof.
  apply (@C5_time_constraint_after_load sample_iris sample_os
           "surface_pressure" "/data").
  - exists sample_tree, "/data", "foo_surface_pressure_20200101.nc".
    split; [reflexivity |]. split.
    + apply file_here. do 2 right. left.
    + exists "foo_", "_20200101.nc". reflexivity.
  - reflexivity.
Defined.

(** The two outcomes of a time constraint on the sample data: a stamp
    that no loaded cube carries, and one that a cube carries. *)
Example finder_no_match :
  outcome (@get_additional_diagnostics sample_iris sample_os
             "surface_pressure" "/data" (Some "19991231"))
  = Raise (ValueError "No diagnostics match 19991231").
Proof. reflexivity. Qed.

Example finder_match :
  outcome (@get_additional_diagnostics sample_iris sample_os
             "surface_pressure" "/data" (Some "20200102"))
  = Ok ["/data/surface_pressure_archive/foo_surface_pressure_20200102.nc"].
Proof. reflexivity. Qed.

(** C6.  The paths selected for loading are exactly the joined paths of
    the files, at any depth below the root directory, whose own name has
    the diagnostic name as a substring, character for character. *)
Theorem C6_selected_files `{OS} diagnostic_name diagnostic_data_path path :
  path ∈ files_to_read diagnostic_name diagnostic_data_path <->
  exists t dirpath filename,
    directory diagnostic_data_path = Some t /\
    file_under diagnostic_data_path t dirpath filename /\
    (exists before after,
       filename = before +:+ diagnostic_name +:+ after) /\
    path = path_join dirpath filename.
Proof. apply files_to_read_spec. Qed.

(** On the sample tree: the directory named after the diagnostic brings
    in only the file whose own name matches, and a name in another case
    matches nothing. *)
Example files_to_read_sample :
  files_to_read (H := sample_os) "surface_pressure" "/data"
  = ["/data/foo_surface_pressure_20200101.nc";
     "/data/surface_pressure_archive/foo_surface_pressure_20200102.nc"]
  /\ files_to_read (H := sample_os) "Surface_Pressure" "/data" = []
  /\ files_to_read (H := sample_os) "surface_pressure" "/nowhere" = [].
Proof. repeat split; reflexivity. Qed.

(** C7.  Any method other than ['model_level_temperature_lapse_rate']
    gives [None], with no exception and with an empty event log: neither
    the directory walk nor a load takes place. *)
Theorem C7_other_method_no_prerequisites `{Iris} `{OS}
    method diagnostic_data_path :
  method <> "model_level_temperature_lapse_rate" ->
  get_method_prerequisites method diagnostic_data_path = ([], Ok None).
Proof.
  intros Hother. unfold get_method_prerequisites.
  by destruct (decide (method = "model_level_temperature_lapse_rate")).
Qed.

Lemma C7_other_method_no_prerequisites_witness :
  @get_method_prerequisites sample_iris sample_os EmptyString "/data" = ([], Ok None).
Proof.
  apply (@C7_other_method_no_prerequisites sample_iris sample_os EmptyString "/data").
  discriminate.
Defined.

(** ** get_method_prerequisites *)

Lemma outcome_bind {A B} (m : io A) (k : A -> io B) :
  outcome (m ≫= k)
  = match outcome m with
    | Ok a => outcome (k a)
    | Raise e => Raise e
    end.
Proof.
  destruct m as [log [a|e]]; [| done].
  unfold mbind, io_bind, outcome. simpl. by destruct (k a).
Qed.

(** The loop, when every search returns: each listed name is bound to
    what its search returned, and no other key is touched. *)
Lemma for_item_in_returns `{Iris} `{OS} diagnostic_data_path diagnostics :
  forall additional_diagnostics : gmap string Obj,
  (forall item, item ∈ diagnostics ->
     exists cubes,
       outcome (get_additional_diagnostics item diagnostic_data_path None)
       = Ok cubes) ->
  exists filled : gmap string Obj,
    outcome (for_item_in diagnostics diagnostic_data_path
                         additional_diagnostics) = Ok filled /\
    (forall item, item ∈ diagnostics ->
       exists cubes,
         filled !! item = Some cubes /\
         outcome (get_additional_diagnostics item diagnostic_data_path None)
         = Ok cubes) /\
    (forall name, name ∉ diagnostics ->
       filled !! name = additional_diagnostics !! name).
Proof.
  induction diagnostics as [|item rest IH]; intros acc Hall.
  - exists acc. split; [done |]. split; [| done].
    intros item Hin. by apply elem_of_nil in Hin.
  - destruct (Hall item) as [v Hv]; [left |].
    destruct (IH (<[item := v]> acc)) as (filled & Hrun & Hlisted & Hrest).
    { intros d Hd. apply Hall. by right. }
    exists filled. split; [| split].
    + cbn [for_item_in]. rewrite outcome_bind, Hv. exact Hrun.
    + intros d Hd. destruct (decide (d ∈ rest)) as [Hin|Hout].
      * by apply Hlisted.
      * apply elem_of_cons in Hd as [->|Hd]; [| done].
        exists v. split; [| done].
        rewrite (Hrest item Hout). apply lookup_insert_eq.
    + intros name Hname. apply not_elem_of_cons in Hname as [Hne Hout].
      rewrite (Hrest name Hout). by apply lookup_insert_ne.
Qed.

(** C2.  For ['model_level_temperature_lapse_rate'], when each of the
    three diagnostics has a qualifying file below the root directory and
    [iris.load] returns a collection for each list of qualifying files,
    the result is a dictionary whose keys are exactly the three names,
    each bound to what [get_additional_diagnostics] returns for that name
    with no time constraint. *)
Theorem C2_lapse_rate_prerequisites `{Iris} `{OS} diagnostic_data_path :
  (forall item, item ∈ lapse_rate_diagnostics ->
     qualifies item diagnostic_data_path) ->
  (forall item, item ∈ lapse_rate_diagnostics ->
     exists cubes,
       load (Paths (files_to_read item diagnostic_data_path)) None
       = Ok cubes) ->
  exists additional_diagnostics : gmap string Obj,
    outcome (get_method_prerequisites
               "model_level_temperature_lapse_rate" diagnostic_data_path)
    = Ok (Some additional_diagnostics) /\
    dom additional_diagnostics
    = {[ "temperature_on_height_levels";
         "pressure_on_height_levels";
         "surface_pressure" ]} /\
    forall item, item ∈ lapse_rate_diagnostics ->
      exists cubes,
        additional_diagnostics !! item = Some cubes /\
        outcome (get_additional_diagnostics item diagnostic_data_path None)
        = Ok cubes.
Proof.
  intros Hfiles Hload.
  destruct (for_item_in_returns diagnostic_data_path lapse_rate_diagnostics ∅)
    as (filled & Hrun & Hlisted & Hrest).
  { intros item Hitem.
    destruct (Hload item Hitem) as [cubes Hcubes]. exists cubes.
    pose proof (Hfiles item Hitem) as Hsome%qualifies_iff.
    rewrite (finder_some_files _ _ None Hsome). simpl. by rewrite Hcubes. }
  exists filled. split; [| split; [| done]].
  - unfold get_method_prerequisites.
    destruct (decide ("model_level_temperature_lapse_rate"
                      = "model_level_temperature_lapse_rate")); [| done].
    cbv zeta. fold lapse_rate_diagnostics. by rewrite outcome_bind, Hrun.
  - apply set_eq. intros name. rewrite elem_of_dom.
    destruct (decide (name ∈ lapse_rate_diagnostics)) as [Hin|Hout].
    + destruct (Hlisted name Hin) as (cubes & -> & _).
      split; [intros _ | by eauto].
      unfold lapse_rate_diagnostics in Hin.
      rewrite !elem_of_cons, elem_of_nil in Hin.
      rewrite !elem_of_union, !elem_of_singleton. tauto.
    + rewrite (Hrest name Hout), lookup_empty.
      split; [by intros [? ?] |].
      intros Hname. destruct Hout.
      rewrite !elem_of_union, !elem_of_singleton in Hname.
      unfold lapse_rate_diagnostics.
      rewrite !elem_of_cons, elem_of_nil. tauto.
Qed.

Lemma C2_lapse_rate_prerequisites_witness :
  exists additional_diagnostics : gmap string (list string),
    outcome (@get_method_prerequisites sample_iris sample_os
               "model_level_temperature_lapse_rate" "/data")
    = Ok (Some additional_diagnostics) /\
    dom additional_diagnostics
    = {[ "temperature_on_height_levels";
         "pressure_on_height_levels";
         "surface_pressure" ]} /\
    forall item, item ∈ lapse_rate_diagnostics ->
      exists cubes,
        additional_diagnostics !! item = Some cubes /\
        outcome (@get_additional_diagnostics sample_iris sample_os
                   item "/data" None)
        = Ok cubes.
Proof.
  apply (@C2_lapse_rate_prerequisites sample_iris sample_os "/data").
  - intros item Hitem. apply qualifies_iff.
    unfold lapse_rate_diagnostics in Hitem.
    repeat (apply elem_of_cons in Hitem as [->|Hitem]); [done .. |].
    by apply elem_of_nil in Hitem.
  - intros item _. eexists. reflexivity.
Defined.

(** The spec's scenario on the sample directory: three keys, and the
    temperature key bound to a collection of one. *)
Example prerequisites_sample :
  exists additional_diagnostics : gmap string (list string),
    @get_method_prerequisites sample_iris sample_os
      "model_level_temperature_lapse_rate" "/data"
    = ([EvWalk "/data";
        EvLoad (Paths ["/data/foo_temperature_on_height_levels_20200101.nc"])
               None;
        EvWalk "/data";
        EvLoad (Paths ["/data/foo_pressure_on_height_levels_20200101.nc"])
               None;
        EvWalk "/data";
        EvLoad (Paths ["/data/foo_surface_pressure_20200101.nc";
                       "/data/surface_pressure_archive/foo_surface_pressure_20200102.nc"])
               None],
       Ok (Some additional_diagnostics)) /\
    size additional_diagnostics = 3 /\
    additional_diagnostics !! "temperature_on_height_levels"
    = Some ["/data/foo_temperature_on_height_levels_20200101.nc"].
Proof. eexists. repeat split; reflexivity. Qed.

(** ** data_from_dictionary *)

(** C8.  Whatever the key: a value that is not a dictionary raises
    [TypeError]; a dictionary without the key raises [KeyError] with the
    key in its message; a dictionary with the key gives back the very
    reference it stores under that key. *)
Theorem C8_data_from_dictionary (dictionary_data : pyval) (key : string) :
  (isinstance_dict dictionary_data = false ->
   data_from_dictionary dictionary_data key
   = Raise (TypeError
       "Invalid type sent to data_from_dictionary - Not a dictionary.")) /\
  (forall entries : gmap string ref,
     dictionary_data = PyDict entries -> entries !! key = None ->
     data_from_dictionary dictionary_data key
     = Raise (KeyError ("Data " +:+ key +:+ " not found in dictionary.")) /\
     substring_of key ("Data " +:+ key +:+ " not found in dictionary.")) /\
  (forall (entries : gmap string ref) (stored : ref),
     dictionary_data = PyDict entries -> entries !! key = Some stored ->
     data_from_dictionary dictionary_data key = Ok stored).
Proof.
  split; [| split].
  - by destruct dictionary_data.
  - intros entries -> Hkey. split.
    + unfold data_from_dictionary.
      destruct (decide (key ∈ dom entries)) as [Hin|_]; [| done].
      apply elem_of_dom in Hin as [v Hv]. congruence.
    + by exists "Data ", " not found in dictionary.".
  - intros entries stored -> Hkey. unfold data_from_dictionary.
    destruct (decide (key ∈ dom entries)) as [_|Hout].
    + by rewrite Hkey.
    + destruct Hout. apply elem_of_dom. eauto.
Qed.

Lemma C8_data_from_dictionary_witness :
  data_from_dictionary (PyStr "orography") "orography"
  = Raise (TypeError
      "Invalid type sent to data_from_dictionary - Not a dictionary.") /\
  data_from_dictionary (PyDict {[ "orography" := 7%positive ]}) "land_mask"
  = Raise (KeyError "Data land_mask not found in dictionary.") /\
  data_from_dictionary (PyDict {[ "orography" := 7%positive ]}) "orography"
  = Ok 7%positive.
Proof.
  split; [| split].
  - apply (proj1 (C8_data_from_dictionary (PyStr "orography") "orography")).
    reflexivity.
  - apply (proj1 (proj2 (C8_data_from_dictionary
                          (PyDict {[ "orography" := 7%positive ]})
                          "land_mask"))
             {[ "orography" := 7%positive ]}); reflexivity.
  - apply (proj2 (proj2 (C8_data_from_dictionary
                          (PyDict {[ "orography" := 7%positive ]})
                          "orography"))
             {[ "orography" := 7%positive ]}); reflexivity.
Defined.

(** ** read_config *)

(** [read_config] opens the file and returns what the decoder makes of
    its text, or the exception of whichever of the two fails. *)
Lemma read_config_run `{OS} `{Json} file_path :
  read_config file_path
  = ([EvOpen file_path],
     match read_text file_path with
     | Ok text => json_loads text
     | Raise e => Raise e
     end).
Proof.
  unfold read_config. io_step.
  destruct (read_text file_path) as [text|e]; [| done].
  by destruct (json_loads text).
Qed.

(** C10.  Whatever value the decoder produces for the text of the file
    is returned as it is; its kind is never examined, so an array, a
    string, a number, a boolean or null at top level comes back too. *)
Theorem C10_top_level_value_unchecked `{OS} `{Json}
    (file_path text : string) (parsed : json) :
  read_text file_path = Ok text ->
  json_loads text = Ok parsed ->
  read_config file_path = ([EvOpen file_path], Ok parsed).
Proof.
  intros Htext Hparsed. rewrite read_config_run. by rewrite Htext, Hparsed.
Qed.

Lemma C10_top_level_value_unchecked_witness :
  is_mapping (JArr [JInt 1; JInt 2]) = false /\
  @read_config sample_os sample_json "/etc/list.json"
  = ([EvOpen "/etc/list.json"], Ok (JArr [JInt 1; JInt 2])).
Proof.
  split; [reflexivity |].
  apply (@C10_top_level_value_unchecked sample_os sample_json
           "/etc/list.json" "[1, 2]"); reflexivity.
Defined.

(** * Further properties of the module *)

(** ** class Load *)

(** X1.  With one of the two strategy tags, [process] is the iris loader
    of that name and nothing more: one call, made with the very file
    specification and filter it was given, whose value or exception is
    handed on as it is. *)
Theorem X1_process_delegates `{Iris} filepath diagnostic :
  process {| method := "single_file" |} filepath diagnostic
  = ([EvLoadCube filepath diagnostic], load_cube filepath diagnostic) /\
  process {| method := "multi_file" |} filepath diagnostic
  = ([EvLoad filepath diagnostic], load filepath diagnostic).
Proof.
  split; unfold process; simpl; io_step.
  - by destruct (load_cube filepath diagnostic).
  - by destruct (load filepath diagnostic).
Qed.



Lemma append_cancel_r (a b c : string) : a +:+ c = b +:+ c -> a = b.
Proof.
  assert (forall s t, String.length (s +:+ t)
                      = String.length s + String.length t) as Hlen.
  { intros s t. induction s as [|x s IH]; [done |].
    change (S (String.length (s +:+ t))
            = S (String.length s + String.length t)). by rewrite IH. }
  revert b. induction a as [|x a IH]; intros [|y b] Heq.
  - done.
  - apply (f_equal String.length) in Heq.
    change (String.length c = S (String.length (b +:+ c))) in Heq.
    rewrite Hlen in Heq. lia.
  - apply (f_equal String.length) in Heq.
    change (S (String.length (a +:+ c)) = String.length c) in Heq.
    rewrite Hlen in Heq. lia.
  - change (String x (a +:+ c) = String y (b +:+ c)) in Heq.
    injection Heq as -> Heq. by rewrite (IH b Heq).
Qed.

(** X3.  The printed form of a loader tells its tag: loaders built with
    different tags never print alike. *)
Theorem X3_repr_tells_the_tag (a b : Load) :
  method a <> method b -> __repr__ a <> __repr__ b.
Proof.
  intros Hdiff Heq. apply Hdiff. unfold __repr__ in Heq.
  apply (inj (String.append "<Load: method: ")) in Heq.
  by apply append_cancel_r in Heq.
Qed.

Lemma X3_repr_tells_the_tag_witness :
  __repr__ {| method := "single_file" |}
  <> __repr__ {| method := "multi_file" |}.
Proof.
  apply (X3_repr_tells_the_tag
           {| method := "single_file" |} {| method := "multi_file" |}).
  discriminate.
Defined.

(** ** get_additional_diagnostics *)

(** X4.  An exception of [iris.load] on the qualifying files leaves
    [get_additional_diagnostics] as it is, neither caught nor rewrapped,
    and whatever the time constraint, which is then never applied. *)
Theorem X4_loader_exception_propagates `{Iris} `{OS}
    diagnostic_name diagnostic_data_path time_extract e :
  qualifies diagnostic_name diagnostic_data_path ->
  load (Paths (files_to_read diagnostic_name diagnostic_data_path)) None
  = Raise e ->
  get_additional_diagnostics diagnostic_name diagnostic_data_path time_extract
  = ([EvWalk diagnostic_data_path;
      EvLoad (Paths (files_to_read diagnostic_name diagnostic_data_path))
             None],
     Raise e).
Proof.
  intros Hsome%qualifies_iff Hload.
  rewrite (finder_some_files _ _ time_extract Hsome). by rewrite Hload.
Qed.

Lemma X4_loader_exception_propagates_witness :
  @get_additional_diagnostics failing_iris sample_os
    "surface_pressure" "/data" (Some "20200101")
  = ([EvWalk "/data";
      EvLoad (Paths (files_to_read (H := sample_os)
                       "surface_pressure" "/data"))
             None],
     Raise (IOError "cannot read file")).
Proof.
  apply (@X4_loader_exception_propagates failing_iris sample_os
           "surface_pressure" "/data" (Some "20200101")).
  - apply qualifies_iff. discriminate.
  - reflexivity.
Defined.

(** X5.  Every run walks the directory once and then either stops, when
    no file qualifies, or makes exactly one [iris.load] call, on the
    whole list of qualifying files and with no diagnostic filter.  The
    single-cube loader is never used and nothing is loaded file by file. *)
Theorem X5_one_walk_at_most_one_load `{Iris} `{OS}
    diagnostic_name diagnostic_data_path time_extract :
  (~ qualifies diagnostic_name diagnostic_data_path /\
   events (get_additional_diagnostics
             diagnostic_name diagnostic_data_path time_extract)
   = [EvWalk diagnostic_data_path]) \/
  (qualifies diagnostic_name diagnostic_data_path /\
   events (get_additional_diagnostics
             diagnostic_name diagnostic_data_path time_extract)
   = [EvWalk diagnostic_data_path;
      EvLoad (Paths (files_to_read diagnostic_name diagnostic_data_path))
             None]).
Proof.
  destruct (decide (files_to_read diagnostic_name diagnostic_data_path = []))
    as [Hnil|Hsome].
  - left. split.
    + rewrite qualifies_iff. by intros Hsome.
    + by rewrite (finder_no_files _ _ time_extract Hnil).
  - right. split; [by apply qualifies_iff |].
    by rewrite (finder_some_files _ _ time_extract Hsome).
Qed.

(** X6.  A root path that is no directory is not told apart from a
    directory without a match: the walk yields nothing and the same
    [IOError] about missing data files is raised, for every diagnostic
    name. *)
Theorem X6_missing_directory_same_error `{Iris} `{OS}
    diagnostic_name diagnostic_data_path time_extract :
  directory diagnostic_data_path = None ->
  files_to_read diagnostic_name diagnostic_data_path = [] /\
  get_additional_diagnostics diagnostic_name diagnostic_data_path time_extract
  = ([EvWalk diagnostic_data_path],
     Raise (IOError ("No relevant data files found in "
                       +:+ diagnostic_data_path +:+ "."))).
Proof.
  intros Hmissing.
  assert (files_to_read diagnostic_name diagnostic_data_path = []) as Hnil
    by (unfold files_to_read, os_walk; by rewrite Hmissing).
  split; [done | by apply finder_no_files].
Qed.

Lemma X6_missing_directory_same_error_witness :
  files_to_read (H := sample_os) "surface_pressure" "/nowhere" = [] /\
  @get_additional_diagnostics sample_iris sample_os
    "surface_pressure" "/nowhere" None
  = ([EvWalk "/nowhere"],
     Raise (IOError "No relevant data files found in /nowhere.")).
Proof.
  apply (@X6_missing_directory_same_error sample_iris sample_os
           "surface_pressure" "/nowhere" None).
  reflexivity.
Defined.

Lemma substring_of_trans (a b c : string) :
  substring_of a b -> substring_of b c -> substring_of a c.
Proof.
  intros (before & after & ->) (before' & after' & ->).
  exists (before' +:+ before), (after +:+ after').
  by rewrite !append_assoc.
Qed.

(** X7.  Matching is by substring only, so a shorter name catches the
    files of every name it is part of: when one diagnostic name occurs
    inside another, each file selected for the longer name is selected
    for the shorter one as well. *)
Theorem X7_shorter_name_selects_more `{OS}
    shorter longer diagnostic_data_path path :
  substring_of shorter longer ->
  path ∈ files_to_read longer diagnostic_data_path ->
  path ∈ files_to_read shorter diagnostic_data_path.
Proof.
  intros Hpart Hin. apply files_to_read_spec in Hin
    as (t & dirpath & filename & Hdir & Hunder & Hsub & ->).
  apply files_to_read_spec. exists t, dirpath, filename.
  split; [done |]. split; [done |]. split; [| done].
  by apply substring_of_trans with longer.
Qed.

Lemma X7_shorter_name_selects_more_witness :
  "/data/foo_pressure_on_height_levels_20200101.nc"
    ∈ files_to_read (H := sample_os) "pressure" "/data".
Proof.
  apply (@X7_shorter_name_selects_more sample_os
           "pressure" "pressure_on_height_levels" "/data").
  - exists EmptyString, "_on_height_levels". reflexivity.
  - left.
Defined.

(** X8.  The empty diagnostic name is part of every file name: with it
    every file below the root directory, at any depth, is selected. *)
Theorem X8_empty_name_selects_all `{OS} diagnostic_data_path path :
  path ∈ files_to_read EmptyString diagnostic_data_path <->
  exists t dirpath filename,
    directory diagnostic_data_path = Some t /\
    file_under diagnostic_data_path t dirpath filename /\
    path = path_join dirpath filename.
Proof.
  rewrite files_to_read_spec. split.
  - intros (t & dirpath & filename & ? & ? & _ & ?). eauto 10.
  - intros (t & dirpath & filename & ? & ? & ?).
    exists t, dirpath, filename.
    split; [done |]. split; [done |]. split; [| done].
    exists EmptyString, filename. reflexivity.
Qed.

(** ** get_method_prerequisites *)

Lemma events_bind {A B} (m : io A) (k : A -> io B) :
  events (m ≫= k)
  = match outcome m with
    | Ok a => events m ++ events (k a)
    | Raise e => events m
    end.
Proof.
  destruct m as [log [a|e]]; [| done].
  unfold mbind, io_bind, events, outcome. simpl. by destruct (k a).
Qed.

Lemma io_eq {A} (m : io A) log r : events m = log -> outcome m = r -> m = (log, r).
Proof. destruct m. unfold events, outcome. simpl. congruence. Qed.

(** The log of the loop while every search returns: the logs of the
    searches, one after the other, in the order of the list. *)
Lemma for_item_in_events `{Iris} `{OS} diagnostic_data_path diagnostics :
  forall additional_diagnostics : gmap string Obj,
  (forall item, item ∈ diagnostics ->
     exists cubes,
       outcome (get_additional_diagnostics item diagnostic_data_path None)
       = Ok cubes) ->
  events (for_item_in diagnostics diagnostic_data_path additional_diagnostics)
  = flat_map
      (fun item =>
         events (get_additional_diagnostics item diagnostic_data_path None))
      diagnostics.
Proof.
  induction diagnostics as [|item rest IH]; intros acc Hall; [done |].
  destruct (Hall item) as [v Hv]; [left |].
  cbn [for_item_in flat_map]. rewrite events_bind, Hv.
  f_equal. apply IH. intros d Hd. apply Hall. by right.
Qed.

(** The loop stops at the first search that raises: its exception is the
    outcome, and the log ends with the log of that search. *)
Lemma for_item_in_first_failure `{Iris} `{OS}
    diagnostic_data_path before item after e :
  forall additional_diagnostics : gmap string Obj,
  (forall d, d ∈ before ->
     exists cubes,
       outcome (get_additional_diagnostics d diagnostic_data_path None)
       = Ok cubes) ->
  outcome (get_additional_diagnostics item diagnostic_data_path None)
  = Raise e ->
  for_item_in (before ++ item :: after) diagnostic_data_path
              additional_diagnostics
  = (flat_map
       (fun d =>
          events (get_additional_diagnostics d diagnostic_data_path None))
       (before ++ [item]),
     Raise e).
Proof.
  induction before as [|d before IH]; intros acc Hall Hfail.
  - apply io_eq.
    + cbn [app for_item_in flat_map]. rewrite events_bind, Hfail.
      by rewrite app_nil_r.
    + cbn [app for_item_in]. by rewrite outcome_bind, Hfail.
  - destruct (Hall d) as [v Hv]; [left |].
    assert (for_item_in (before ++ item :: after) diagnostic_data_path
                        (<[d := v]> acc)
            = (flat_map
                 (fun d =>
                    events (get_additional_diagnostics
                              d diagnostic_data_path None))
                 (before ++ [item]),
               Raise e)) as Hrest.
    { apply IH; [| done]. intros d' Hd'. apply Hall. by right. }
    apply io_eq.
    + change ((d :: before) ++ item :: after)
        with (d :: (before ++ item :: after)).
      cbn [for_item_in]. rewrite events_bind, Hv, Hrest. done.
    + change ((d :: before) ++ item :: after)
        with (d :: (before ++ item :: after)).
      cbn [for_item_in]. rewrite outcome_bind, Hv, Hrest. done.
Qed.

(** A loop that returned had every one of its searches return. *)
Lemma for_item_in_inv `{Iris} `{OS} diagnostic_data_path diagnostics :
  forall additional_diagnostics filled : gmap string Obj,
  outcome (for_item_in diagnostics diagnostic_data_path
                       additional_diagnostics) = Ok filled ->
  forall item, item ∈ diagnostics ->
    exists cubes,
      outcome (get_additional_diagnostics item diagnostic_data_path None)
      = Ok cubes.
Proof.
  induction diagnostics as [|d rest IH]; intros acc filled Hrun item Hitem.
  - by apply elem_of_nil in Hitem.
  - cbn [for_item_in] in Hrun. rewrite outcome_bind in Hrun.
    destruct (outcome (get_additional_diagnostics
                         d diagnostic_data_path None)) as [v|e] eqn:Hv;
      [| done].
    apply elem_of_cons in Hitem as [->|Hitem]; [eauto |].
    by apply (IH _ _ Hrun).
Qed.

(** A search that returned had a qualifying file. *)
Lemma finder_returned_qualifies `{Iris} `{OS}
    diagnostic_name diagnostic_data_path time_extract cubes :
  outcome (get_additional_diagnostics
             diagnostic_name diagnostic_data_path time_extract) = Ok cubes ->
  qualifies diagnostic_name diagnostic_data_path.
Proof.
  intros Hret. apply qualifies_iff. intros Hnil.
  by rewrite (finder_no_files _ _ _ Hnil) in Hret.
Qed.

Lemma lapse_rate_keys {V} (m : gmap string V) :
  (forall item, item ∈ lapse_rate_diagnostics -> is_Some (m !! item)) ->
  (forall name, name ∉ lapse_rate_diagnostics -> m !! name = None) ->
  dom m
  = {[ "temperature_on_height_levels";
       "pressure_on_height_levels";
       "surface_pressure" ]}.
Proof.
  intros Hlisted Hrest. apply set_eq. intros name. rewrite elem_of_dom.
  unfold lapse_rate_diagnostics in *.
  rewrite !elem_of_union, !elem_of_singleton.
  destruct (decide (name ∈ ["temperature_on_height_levels";
                            "pressure_on_height_levels";
                            "surface_pressure"])) as [Hin|Hout].
  - split; [intros _ | by auto].
    rewrite !elem_of_cons, elem_of_nil in Hin. tauto.
  - rewrite (Hrest name Hout). split; [by intros [? ?] |].
    intros Hname. destruct Hout. rewrite !elem_of_cons, elem_of_nil. tauto.
Qed.

(** X9.  A dictionary is only ever returned whole.  When
    [get_method_prerequisites] returns a dictionary, the method was
    ['model_level_temperature_lapse_rate'], every one of the three
    diagnostics had a qualifying file, the keys are exactly the three
    names and each is bound to what its search returned: there is no
    dictionary with some of the keys missing. *)
Theorem X9_no_partial_dictionary `{Iris} `{OS}
    method diagnostic_data_path (additional_diagnostics : gmap string Obj) :
  outcome (get_method_prerequisites method diagnostic_data_path)
  = Ok (Some additional_diagnostics) ->
  method = "model_level_temperature_lapse_rate" /\
  dom additional_diagnostics
  = {[ "temperature_on_height_levels";
       "pressure_on_height_levels";
       "surface_pressure" ]} /\
  forall item, item ∈ lapse_rate_diagnostics ->
    qualifies item diagnostic_data_path /\
    exists cubes,
      additional_diagnostics !! item = Some cubes /\
      outcome (get_additional_diagnostics item diagnostic_data_path None)
      = Ok cubes.
Proof.
  unfold get_method_prerequisites.
  destruct (decide (method = "model_level_temperature_lapse_rate"))
    as [->|_]; [| done].
  cbv zeta. fold lapse_rate_diagnostics. rewrite outcome_bind.
  destruct (outcome (for_item_in lapse_rate_diagnostics
                                 diagnostic_data_path ∅))
    as [filled|e] eqn:Hrun; [| done].
  intros Hret. injection Hret as ->. split; [done |].
  pose proof (for_item_in_inv _ _ _ _ Hrun) as Hall.
  destruct (for_item_in_returns diagnostic_data_path lapse_rate_diagnostics
              ∅ Hall) as (filled' & Hrun' & Hlisted & Hrest).
  rewrite Hrun in Hrun'. injection Hrun' as <-. split.
  - apply lapse_rate_keys.
    + intros item Hitem. destruct (Hlisted item Hitem) as (cubes & -> & _).
      by eexists.
    + intros name Hname. by rewrite (Hrest name Hname).
  - intros item Hitem. destruct (Hlisted item Hitem) as (cubes & Hkey & Hret).
    split; [by apply finder_returned_qualifies with None cubes | eauto].
Qed.

Lemma X9_no_partial_dictionary_witness :
  "model_level_temperature_lapse_rate" = "model_level_temperature_lapse_rate"
  /\
  dom (<["surface_pressure" :=
           ["/data/foo_surface_pressure_20200101.nc";
            "/data/surface_pressure_archive/foo_surface_pressure_20200102.nc"]]>
       (<["pressure_on_height_levels" :=
            ["/data/foo_pressure_on_height_levels_20200101.nc"]]>
        (<["temperature_on_height_levels" :=
             ["/data/foo_temperature_on_height_levels_20200101.nc"]]>
         (∅ : gmap string (list string)))))
  = {[ "temperature_on_height_levels";
       "pressure_on_height_levels";
       "surface_pressure" ]} /\
  forall item, item ∈ lapse_rate_diagnostics ->
    qualifies (H := sample_os) item "/data" /\
    exists cubes,
      (<["surface_pressure" :=
           ["/data/foo_surface_pressure_20200101.nc";
            "/data/surface_pressure_archive/foo_surface_pressure_20200102.nc"]]>
       (<["pressure_on_height_levels" :=
            ["/data/foo_pressure_on_height_levels_20200101.nc"]]>
        (<["temperature_on_height_levels" :=
             ["/data/foo_temperature_on_height_levels_20200101.nc"]]>
         (∅ : gmap string (list string))))) !! item = Some cubes /\
      outcome (@get_additional_diagnostics sample_iris sample_os
                 item "/data" None)
      = Ok cubes.
Proof.
  apply (@X9_no_partial_dictionary sample_iris sample_os
           "model_level_temperature_lapse_rate" "/data").
  reflexivity.
Defined.

(** X10.  The searches run in the order temperature, pressure, surface
    pressure, and the first one that raises ends the call with its
    exception: the log holds the searches up to and including the failing
    one, the diagnostics after it are not looked for, and no dictionary is
    returned. *)
Theorem X10_first_failure_aborts `{Iris} `{OS}
    diagnostic_data_path before item after e :
  lapse_rate_diagnostics = before ++ item :: after ->
  (forall d, d ∈ before ->
     exists cubes,
       outcome (get_additional_diagnostics d diagnostic_data_path None)
       = Ok cubes) ->
  outcome (get_additional_diagnostics item diagnostic_data_path None)
  = Raise e ->
  get_method_prerequisites
    "model_level_temperature_lapse_rate" diagnostic_data_path
  = (flat_map
       (fun d =>
          events (get_additional_diagnostics d diagnostic_data_path None))
       (before ++ [item]),
     Raise e).
Proof.
  intros Hsplit Hbefore Hfail. unfold get_method_prerequisites.
  destruct (decide ("model_level_temperature_lapse_rate"
                    = "model_level_temperature_lapse_rate")); [| done].
  cbv zeta. fold lapse_rate_diagnostics. rewrite Hsplit.
  by rewrite (for_item_in_first_failure _ _ _ _ _ ∅ Hbefore Hfail).
Qed.

Lemma X10_first_failure_aborts_witness :
  @get_method_prerequisites sample_iris partial_os
    "model_level_temperature_lapse_rate" "/partial"
  = ([EvWalk "/partial";
      EvLoad (Paths ["/partial/foo_temperature_on_height_levels_20200101.nc"])
             None;
      EvWalk "/partial"],
     Raise (IOError "No relevant data files found in /partial.")).
Proof.
  apply (@X10_first_failure_aborts sample_iris partial_os "/partial"
           ["temperature_on_height_levels"] "pressure_on_height_levels"
           ["surface_pressure"]).
  - reflexivity.
  - intros d Hd.
    apply elem_of_cons in Hd as [->|Hd]; [| by apply elem_of_nil in Hd].
    eexists. reflexivity.
  - reflexivity.
Defined.

(** X11.  Nothing is shared between the three searches: when all of
    them return, the directory has been walked three times and
    [iris.load] called three times, each on the files of one diagnostic,
    in the order temperature, pressure, surface pressure. *)
Theorem X11_three_walks_three_loads `{Iris} `{OS} diagnostic_data_path :
  (forall item, item ∈ lapse_rate_diagnostics ->
     qualifies item diagnostic_data_path) ->
  (forall item, item ∈ lapse_rate_diagnostics ->
     exists cubes,
       load (Paths (files_to_read item diagnostic_data_path)) None
       = Ok cubes) ->
  events (get_method_prerequisites
            "model_level_temperature_lapse_rate" diagnostic_data_path)
  = [EvWalk diagnostic_data_path;
     EvLoad (Paths (files_to_read "temperature_on_height_levels"
                                  diagnostic_data_path)) None;
     EvWalk diagnostic_data_path;
     EvLoad (Paths (files_to_read "pressure_on_height_levels"
                                  diagnostic_data_path)) None;
     EvWalk diagnostic_data_path;
     EvLoad (Paths (files_to_read "surface_pressure"
                                  diagnostic_data_path)) None].
Proof.
  intros Hfiles Hload.
  assert (forall item, item ∈ lapse_rate_diagnostics ->
            exists cubes,
              get_additional_diagnostics item diagnostic_data_path None
              = ([EvWalk diagnostic_data_path;
                  EvLoad (Paths (files_to_read item diagnostic_data_path))
                         None],
                 Ok cubes)) as Hrun.
  { intros item Hitem. destruct (Hload item Hitem) as [cubes Hcubes].
    exists cubes. pose proof (Hfiles item Hitem) as Hsome%qualifies_iff.
    rewrite (finder_some_files _ _ None Hsome). by rewrite Hcubes. }
  assert (forall item, item ∈ lapse_rate_diagnostics ->
            exists cubes,
              outcome (get_additional_diagnostics
                         item diagnostic_data_path None) = Ok cubes) as Hall.
  { intros item Hitem. destruct (Hrun item Hitem) as [cubes ->]. eauto. }
  destruct (for_item_in_returns diagnostic_data_path lapse_rate_diagnostics
              ∅ Hall) as (filled & Hfilled & _).
  unfold get_method_prerequisites.
  destruct (decide ("model_level_temperature_lapse_rate"
                    = "model_level_temperature_lapse_rate")); [| done].
  cbv zeta. fold lapse_rate_diagnostics.
  rewrite events_bind, Hfilled, (for_item_in_events _ _ ∅ Hall).
  unfold lapse_rate_diagnostics in *. cbn [flat_map].
  destruct (Hrun "temperature_on_height_levels") as [c1 ->];
    [rewrite !elem_of_cons; tauto |].
  destruct (Hrun "pressure_on_height_levels") as [c2 ->];
    [rewrite !elem_of_cons; tauto |].
  destruct (Hrun "surface_pressure") as [c3 ->];
    [rewrite !elem_of_cons; tauto |].
  reflexivity.
Qed.

Lemma X11_three_walks_three_loads_witness :
  events (@get_method_prerequisites sample_iris sample_os
            "model_level_temperature_lapse_rate" "/data")
  = [EvWalk "/data";
     EvLoad (Paths (files_to_read (H := sample_os)
                      "temperature_on_height_levels" "/data")) None;
     EvWalk "/data";
     EvLoad (Paths (files_to_read (H := sample_os)
                      "pressure_on_height_levels" "/data")) None;
     EvWalk "/data";
     EvLoad (Paths (files_to_read (H := sample_os)
                      "surface_pressure" "/data")) None].
Proof.
  apply (@X11_three_walks_three_loads sample_iris sample_os "/data").
  - intros item Hitem. apply qualifies_iff.
    unfold lapse_rate_diagnostics in Hitem.
    repeat (apply elem_of_cons in Hitem as [->|Hitem]); [done .. |].
    by apply elem_of_nil in Hitem.
  - intros item _. eexists. reflexivity.
Defined.

(** ** data_from_dictionary *)

(** On a dictionary the outcome follows the lookup of the key. *)
Lemma data_from_dictionary_dict (entries : gmap string ref) key :
  data_from_dictionary (PyDict entries) key
  = match entries !! key with
    | Some stored => Ok stored
    | None =>
        Raise (KeyError ("Data " +:+ key +:+ " not found in dictionary."))
    end.
Proof.
  unfold data_from_dictionary.
  destruct (decide (key ∈ dom entries)) as [Hin|Hout].
  - apply elem_of_dom in Hin as [stored Hstored]. by rewrite Hstored.
  - apply not_elem_of_dom in Hout. by rewrite Hout.
Qed.

(** X12.  The outcome tells the caller what was passed in.  A value is
    returned only from a dictionary that holds the key, and it is the
    reference stored there; an exception is either the [TypeError] of a
    value that is no dictionary or the module's own [KeyError] message
    for a dictionary without the key, never the bare [KeyError] of a
    failed subscript. *)
Theorem X12_outcome_tells_input (dictionary_data : pyval) (key : string) :
  (forall stored,
     data_from_dictionary dictionary_data key = Ok stored <->
     exists entries : gmap string ref,
       dictionary_data = PyDict entries /\ entries !! key = Some stored) /\
  (forall e,
     data_from_dictionary dictionary_data key = Raise e ->
     (isinstance_dict dictionary_data = false /\
      e = TypeError
            "Invalid type sent to data_from_dictionary - Not a dictionary.")
     \/
     (e = KeyError ("Data " +:+ key +:+ " not found in dictionary.") /\
      exists entries : gmap string ref,
        dictionary_data = PyDict entries /\ entries !! key = None)).
Proof.
  split.
  - intros stored. split.
    + destruct dictionary_data as [| | | | |entries|]; try done.
      rewrite data_from_dictionary_dict.
      destruct (entries !! key) as [v|] eqn:Hkey; [| done].
      intros [= ->]. eauto.
    + intros (entries & -> & Hkey).
      by rewrite data_from_dictionary_dict, Hkey.
  - intros e.
    destruct dictionary_data as [| | | | |entries|];
      try (intros [= <-]; by left).
    rewrite data_from_dictionary_dict.
    destruct (entries !! key) as [v|] eqn:Hkey; [done |].
    intros [= <-]. right. eauto.
Qed.

(** X13.  Reading after writing.  Once a reference is stored under a
    key, [data_from_dictionary] returns it for that key and answers for
    every other key as it did before; once a key is deleted, asking for
    it raises [KeyError]. *)
Theorem X13_store_then_get (entries : gmap string ref)
    (key other : string) (stored : ref) :
  data_from_dictionary (PyDict (<[key := stored]> entries)) other
  = (if decide (key = other) then Ok stored
     else data_from_dictionary (PyDict entries) other) /\
  data_from_dictionary (PyDict (delete key entries)) key
  = Raise (KeyError ("Data " +:+ key +:+ " not found in dictionary.")).
Proof.
  split.
  - rewrite !data_from_dictionary_dict, lookup_insert.
    by destruct (decide (key = other)).
  - by rewrite data_from_dictionary_dict, lookup_delete_eq.
Qed.

(** ** read_config *)

(** X14.  [read_config] opens the file once and fails exactly when a step
    fails, with the exception of that step, untouched: the one raised on
    opening, in which case nothing is decoded, or the decoder's.  It
    returns a value only when the file could be read and its text
    decoded to that value. *)
Theorem X14_read_config_outcomes `{OS} `{Json} (file_path : string) :
  events (read_config file_path) = [EvOpen file_path] /\
  (forall e,
     read_text file_path = Raise e ->
     outcome (read_config file_path) = Raise e) /\
  (forall text e,
     read_text file_path = Ok text -> json_loads text = Raise e ->
     outcome (read_config file_path) = Raise e) /\
  (forall configuration,
     outcome (read_config file_path) = Ok configuration <->
     exists text,
       read_text file_path = Ok text /\ json_loads text = Ok configuration).
Proof.
  rewrite read_config_run. unfold events, outcome. simpl.
  split; [done |]. split; [| split].
  - by intros e ->.
  - by intros text e -> ->.
  - intros configuration. destruct (read_text file_path) as [text|e].
    + split; [eauto |]. by intros (text' & [= <-] & ->).
    + split; [done |]. by intros (text' & ? & _).
Qed.

Lemma X14_read_config_outcomes_witness :
  outcome (@read_config partial_os sample_json "/etc/missing.json")
  = Raise (IOError "No such file or directory") /\
  outcome (@read_config partial_os sample_json "/etc/broken.json")
  = Raise (ValueError "Expecting value: line 1 column 1 (char 0)").
Proof.
  split.
  - apply (proj1 (proj2 (@X14_read_config_outcomes
                           partial_os sample_json "/etc/missing.json"))).
    reflexivity.
  - apply (proj1 (proj2 (proj2 (@X14_read_config_outcomes
                                  partial_os sample_json
                                  "/etc/broken.json")))
             "not json"); reflexivity.
Defined.

(** ** The selected files, as a list *)

Lemma sublist_flat_map {A B} (f g : A -> list B) (l : list A) :
  (forall x, f x `sublist_of` g x) ->
  flat_map f l `sublist_of` flat_map g l.
Proof.
  intros Hsub. induction l as [|x l IH]; [done |].
  simpl. by apply sublist_app.
Qed.

Lemma sublist_map_filter {A B} (f : A -> B) (p : A -> bool) (l : list A) :
  map f (List.filter p l) `sublist_of` map f l.
Proof.
  induction l as [|x l IH]; [done |]. simpl. destruct (p x); simpl.
  - by apply sublist_skip.
  - by apply sublist_cons.
Qed.

(** X15.  Selection keeps the order of the walk.  The list of files
    selected for a diagnostic is a subsequence of the list of all files
    as the walk yields them, directory by directory and, in a directory,
    in the order of its listing: nothing is sorted, moved or repeated on
    the way to the loader. *)
Theorem X15_selection_keeps_walk_order `{OS}
    diagnostic_name diagnostic_data_path :
  files_to_read diagnostic_name diagnostic_data_path
    `sublist_of`
  flat_map (fun '(dirpath, _, files) => map (path_join dirpath) files)
           (os_walk diagnostic_data_path).
Proof.
  unfold files_to_read. apply sublist_flat_map.
  intros [[dirpath dirnames] files]. apply sublist_map_filter.
Qed.

(** On the sample tree the walk yields six files, the top directory
    first; the two selected for the surface pressure keep their places. *)
Example walk_order_sample :
  flat_map (fun '(dirpath, _, files) => map (path_join dirpath) files)
           (os_walk (H := sample_os) "/data")
  = ["/data/foo_temperature_on_height_levels_20200101.nc";
     "/data/foo_pressure_on_height_levels_20200101.nc";
     "/data/foo_surface_pressure_20200101.nc";
     "/data/foo_wind_speed_20200101.nc";
     "/data/surface_pressure_archive/readme.txt";
     "/data/surface_pressure_archive/foo_surface_pressure_20200102.nc"].
Proof. reflexivity. Qed.

(** ** Paths stay below the root directory *)

Lemma listed_name_relative name :
  listed_name name = true ->
  name <> EmptyString /\ contains "/" name = false /\
  startswith "/" name = false.
Proof.
  destruct name as [|c name]; [done |]. unfold listed_name.
  rewrite !andb_true_iff, !negb_true_iff. intros [[Hsep _] _].
  split; [done |]. split; [done |].
  destruct (startswith "/" (String c name)) eqn:Hrooted; [| done].
  change (contains "/" (String c name))
    with (if startswith "/" (String c name) then true
          else contains "/" name) in Hsep.
  by rewrite Hrooted in Hsep.
Qed.

Lemma path_join_with_sep a b :
  startswith "/" b = false -> path_join a b = with_sep a +:+ b.
Proof.
  intros Hrel. unfold path_join, with_sep. rewrite Hrel.
  destruct a as [|x a]; [done |].
  destruct (ends_with_sep (String x a)); [done |]. by rewrite append_assoc.
Qed.

Lemma ends_with_sep_contains s : ends_with_sep s = true -> contains "/" s = true.
Proof.
  induction s as [|c s IH]; [done |]. destruct s as [|c' s].
  - intros Hend. change (Ascii.eqb c "/" = true) in Hend.
    by apply Ascii.eqb_eq in Hend as ->.
  - intros Hend. change (ends_with_sep (String c' s) = true) in Hend.
    apply IH in Hend.
    change (contains "/" (String c (String c' s)))
      with (if startswith "/" (String c (String c' s)) then true
            else contains "/" (String c' s)).
    rewrite Hend. by destruct (startswith "/" (String c (String c' s))).
Qed.

Lemma ends_with_sep_app a b :
  b <> EmptyString -> ends_with_sep (a +:+ b) = ends_with_sep b.
Proof.
  intros Hb. induction a as [|x a IH]; [done |].
  change (ends_with_sep (String x (a +:+ b)) = ends_with_sep b).
  rewrite <- IH. simpl. destruct (a +:+ b) eqn:Hab; [| done].
  destruct a; [| done]. by destruct Hb.
Qed.

Lemma with_sep_component a name :
  listed_name name = true ->
  with_sep (with_sep a +:+ name) = with_sep a +:+ name +:+ "/".
Proof.
  intros (Hne & Hsep & _)%listed_name_relative.
  assert (ends_with_sep (with_sep a +:+ name) = false) as Hend.
  { rewrite ends_with_sep_app by done.
    destruct (ends_with_sep name) eqn:Hname; [| done].
    apply ends_with_sep_contains in Hname. congruence. }
  unfold with_sep at 1. rewrite Hend.
  destruct (with_sep a +:+ name) eqn:Hjoined.
  - destruct (with_sep a); [| done]. by destruct Hne.
  - by rewrite <- Hjoined, append_assoc.
Qed.

Lemma below_append dirnames a b :
  below dirnames a +:+ b = below dirnames (a +:+ b).
Proof.
  induction dirnames as [|name dirnames IH]; [done |].
  simpl. by rewrite !append_assoc, IH.
Qed.

Lemma file_under_below top t dirpath filename :
  file_under top t dirpath filename ->
  well_named t = true ->
  listed_name filename = true /\
  exists dirnames,
    Forall (fun name => listed_name name = true) dirnames /\
    with_sep dirpath = with_sep top +:+ below dirnames EmptyString.
Proof.
  induction 1 as [top dirs files filename Hfile
                 |top dirs files name sub dirpath filename Hd _ IH];
    intros Hnamed; simpl in Hnamed;
    apply andb_true_iff in Hnamed as [Hfiles Hdirs].
  - split.
    + rewrite forallb_forall in Hfiles.
      by apply list_elem_of_In, Hfiles in Hfile.
    + exists []. split; [done |]. simpl. by rewrite append_nil_r.
  - rewrite forallb_forall in Hdirs.
    apply list_elem_of_In, Hdirs, andb_true_iff in Hd as [Hname Hsub].
    simpl in Hname, Hsub.
    destruct (IH Hsub) as (Hfile & dirnames & Hlisted & Hpath).
    split; [done |]. exists (name :: dirnames). split; [by constructor |].
    rewrite Hpath, path_join_with_sep
      by (by apply listed_name_relative in Hname as (_ & _ & ?)).
    rewrite with_sep_component by done.
    simpl. by rewrite !append_assoc.
Qed.

(** X16.  Nothing outside the data directory is handed to the loader.
    When the names in the tree are names as a directory listing gives
    them (not empty, no separator inside, neither dot entry), every
    selected path is the root path, a separator unless the root path ends
    with one, then zero or more such directory names and the name of the
    file, each followed by one separator but the last.  No component of
    what follows the root path is [..], so the path does not leave the
    root directory. *)
Theorem X16_selected_paths_below_root `{OS}
    diagnostic_name diagnostic_data_path t path :
  directory diagnostic_data_path = Some t ->
  well_named t = true ->
  path ∈ files_to_read diagnostic_name diagnostic_data_path ->
  exists dirnames filename,
    Forall (fun name => listed_name name = true) dirnames /\
    listed_name filename = true /\
    substring_of diagnostic_name filename /\
    path = with_sep diagnostic_data_path +:+ below dirnames filename.
Proof.
  intros Hdir Hnamed Hin. apply files_to_read_spec in Hin
    as (t' & dirpath & filename & Hdir' & Hunder & Hsub & ->).
  rewrite Hdir in Hdir'. injection Hdir' as <-.
  destruct (file_under_below _ _ _ _ Hunder Hnamed)
    as (Hfile & dirnames & Hlisted & Hpath).
  exists dirnames, filename. split; [done |]. split; [done |].
  split; [done |].
  rewrite path_join_with_sep
    by (by apply listed_name_relative in Hfile as (_ & _ & ?)).
  by rewrite Hpath, append_assoc, below_append.
Qed.

Lemma X16_selected_paths_below_root_witness :
  exists dirnames filename,
    Forall (fun name => listed_name name = true) dirnames /\
    listed_name filename = true /\
    substring_of "surface_pressure" filename /\
    "/data/surface_pressure_archive/foo_surface_pressure_20200102.nc"
    = with_sep "/data" +:+ below dirnames filename.
Proof.
  apply (@X16_selected_paths_below_root sample_os
           "surface_pressure" "/data" sample_tree).
  - reflexivity.
  - reflexivity.
  - right. left.
Defined.

(** The path of the witness, taken apart, and two names no listing
    gives. *)
Example below_sample :
  with_sep "/data"
    +:+ below ["surface_pressure_archive"] "foo_surface_pressure_20200102.nc"
  = "/data/surface_pressure_archive/foo_surface_pressure_20200102.nc"
  /\ listed_name ".." = false
  /\ listed_name "../etc/x_t2m.nc" = false.
Proof. repeat split; reflexivity. Qed.
